(** * Payment.tsx: checkout-time order placement

    A shallow embedding of [src/src/pages/Payment.tsx]: the zod schemas
    used to validate the payment fields, the JavaScript expressions that
    build the payable items, the total and the order lines, and the
    [createOrder] mutation with its Supabase calls, modelled as a state and
    error monad over the database tables. *)

From Stdlib Require Import ZArith Lia List Bool Ascii String Permutation.
Import ListNotations.
Open Scope bool_scope.

(** ** Regular expressions

    The JavaScript regular expressions of the zod schemas, without flags:
    [\d] is [0-9], [\w] is [A-Za-z0-9_], and a pattern anchored with
    [^ ... $] matches the whole input. *)

Module Regex.

Inductive re : Type :=
| RNone
| REps
| RClass (p : ascii -> bool)
| RCat (r1 r2 : re)
| RAlt (r1 r2 : re)
| RStar (r : re).

(** [r+] *)
Definition RPlus (r : re) : re := RCat r (RStar r).

(** [r{n}] *)
Fixpoint RRep (n : nat) (r : re) : re :=
  match n with
  | O => REps
  | S k => RCat r (RRep k r)
  end.

(** Matching, as a relation on whole inputs. *)
Inductive in_re : re -> list ascii -> Prop :=
| in_eps : in_re REps []
| in_class p a : p a = true -> in_re (RClass p) [a]
| in_cat r1 r2 s1 s2 :
    in_re r1 s1 -> in_re r2 s2 -> in_re (RCat r1 r2) (s1 ++ s2)
| in_alt_l r1 r2 s : in_re r1 s -> in_re (RAlt r1 r2) s
| in_alt_r r1 r2 s : in_re r2 s -> in_re (RAlt r1 r2) s
| in_star_nil r : in_re (RStar r) []
| in_star_app r s1 s2 :
    in_re r s1 -> in_re (RStar r) s2 -> in_re (RStar r) (s1 ++ s2).

(** Executable matching, by Brzozowski derivatives. *)
Fixpoint nullable (r : re) : bool :=
  match r with
  | RNone => false
  | REps => true
  | RClass _ => false
  | RCat r1 r2 => nullable r1 && nullable r2
  | RAlt r1 r2 => nullable r1 || nullable r2
  | RStar _ => true
  end.

Fixpoint deriv (a : ascii) (r : re) : re :=
  match r with
  | RNone => RNone
  | REps => RNone
  | RClass p => if p a then REps else RNone
  | RCat r1 r2 =>
      if nullable r1 then RAlt (RCat (deriv a r1) r2) (deriv a r2)
      else RCat (deriv a r1) r2
  | RAlt r1 r2 => RAlt (deriv a r1) (deriv a r2)
  | RStar r1 => RCat (deriv a r1) (RStar r1)
  end.

Fixpoint matches (r : re) (s : list ascii) : bool :=
  match s with
  | [] => nullable r
  | a :: s' => matches (deriv a r) s'
  end.

(** [RegExp.prototype.test] on a string. *)
Definition test (r : re) (s : string) : bool := matches r (list_ascii_of_string s).

(** Character classes. *)
Definition chr (c : ascii) : ascii -> bool := fun a => Ascii.eqb a c.
Definition range (lo hi : ascii) : ascii -> bool :=
  fun a => (nat_of_ascii lo <=? nat_of_ascii a) && (nat_of_ascii a <=? nat_of_ascii hi).
(** [\d] *)
Definition digit : ascii -> bool := range "0" "9".
(** [\w] *)
Definition word : ascii -> bool :=
  fun a => range "a" "z" a || range "A" "Z" a || digit a || chr "_" a.
(** [\s], restricted to ASCII: space, tab, line feed, vertical tab, form feed,
    carriage return. *)
Definition space : ascii -> bool :=
  fun a => chr " " a || range (ascii_of_nat 9) (ascii_of_nat 13) a.

End Regex.

(** ** Payment.tsx *)

Module Payment.
Import Regex.

Open Scope string_scope.

(** *** zod schemas (lines 20-27) *)

(** [[\w.-]] *)
Definition upi_char (a : ascii) : bool := word a || chr "." a || chr "-" a.

(** [/^[\w.-]+@[\w.-]+$/] *)
Definition upi_re : re :=
  RCat (RPlus (RClass upi_char)) (RCat (RClass (chr "@")) (RPlus (RClass upi_char))).

(** [/^\d{16}$/] *)
Definition card_number_re : re := RRep 16 (RClass digit).

(** [/^(0[1-9]|1[0-2])\/\d{2}$/] *)
Definition expiry_re : re :=
  RCat (RAlt (RCat (RClass (chr "0")) (RClass (range "1" "9")))
             (RCat (RClass (chr "1")) (RClass (range "0" "2"))))
       (RCat (RClass (chr "/")) (RRep 2 (RClass digit))).

(** [/^\d{3}$/] *)
Definition cvv_re : re := RRep 3 (RClass digit).

(** [z.string().regex(r, msg)] on a string: the issues it reports. *)
Definition zod_regex (r : re) (msg : string) (v : string) : list string :=
  if test r v then [] else [msg].

(** [upiSchema]: the issues of [upiSchema.parse({ upiId })]. *)
Definition upiSchema (upiId : string) : list string :=
  zod_regex upi_re "Invalid UPI ID format" upiId.

(** [cardSchema]: a zod object checks every key, in the order of its shape,
    and collects the issues of all of them. *)
Definition cardSchema (cardNumber expiry cvv : string) : list string :=
  zod_regex card_number_re "Card number must be 16 digits" cardNumber
  ++ zod_regex expiry_re "Invalid expiry format (MM/YY)" expiry
  ++ zod_regex cvv_re "CVV must be 3 digits" cvv.

(** Errors thrown by [mutationFn]. *)
Inductive error : Type :=
| ZodError (issues : list string)
| Error (message : string).

(** [schema.parse]: throws a [ZodError] carrying the issues, if any. *)
Definition zod_parse (issues : list string) : option error :=
  match issues with
  | [] => None
  | _ => Some (ZodError issues)
  end.

(** [onError] (lines 153-158): the message of the toast. *)
Definition onError (e : error) : string :=
  match e with
  | ZodError (m :: _) => m
  | ZodError [] => ""
  | Error m => if m =? "" then "Failed to place order" else m
  end.

(** [banks] (lines 15-18). *)
Definition banks : list string :=
  [ "State Bank of India"; "HDFC Bank"; "ICICI Bank"; "Axis Bank"; "Kotak Mahindra Bank";
    "Punjab National Bank"; "Bank of Baroda"; "Canara Bank"; "Union Bank of India"; "Bank of India" ].

(** [e.target.value.replace(/\s/g, '')], the [onChange] of the card number
    input (line 249): the [cardNumber] state is always a stripped value. *)
Definition strip_spaces (s : string) : string :=
  string_of_list_ascii (filter (fun a => negb (space a)) (list_ascii_of_string s)).

(** *** Form state (lines 42-49) *)
Record form : Type := mkForm {
  paymentMethod : string;
  upiId : string;
  cardNumber : string;
  expiry : string;
  cvv : string;
  selectedBank : string;
  address : string;
  phone : string
}.

(** Payment method validation (lines 83-90). *)
Definition validate_payment (f : form) : option error :=
  if paymentMethod f =? "upi" then zod_parse (upiSchema (upiId f))
  else if paymentMethod f =? "card" then zod_parse (cardSchema (cardNumber f) (expiry f) (cvv f))
  else if (paymentMethod f =? "netbanking") && (selectedBank f =? "") then
    Some (Error "Please select a bank")
  else None.

(** *** Items

    A payable item is a JavaScript object: a cart row joined with its
    product ([select] of the cart rows with their products) or a product spread with a
    quantity. Absent ([undefined]) and [null] fields are [None]. Prices and
    quantities are numbers, taken here as integers. *)
Record product : Type := mkProduct { p_price : option Z }.

Record item : Type := mkItem {
  product_id : option string;
  id : option string;
  price : option Z;
  products : option product;
  quantity : option Z
}.

(** [a || d] on a number: [d] when [a] is [undefined], [null] or [0]. *)
Definition js_or_Z (a : option Z) (d : Z) : Z :=
  match a with
  | Some z => if Z.eqb z 0 then d else z
  | None => d
  end.

(** [a || b] on strings: [b] when [a] is [undefined], [null] or [""]. *)
Definition js_or_str (a b : option string) : option string :=
  match a with
  | Some s => if s =? "" then b else a
  | None => b
  end.

(** [item.products?.price] *)
Definition nested_price (it : item) : option Z :=
  match products it with
  | Some p => p_price p
  | None => None
  end.

(** [item.price || item.products?.price || 0] (lines 73 and 126). *)
Definition unit_price (it : item) : Z :=
  js_or_Z (price it) (js_or_Z (nested_price it) 0).

(** [item.quantity || 1] (line 73). *)
Definition quantity_or_1 (it : item) : Z := js_or_Z (quantity it) 1.

(** [total] (line 73). *)
Definition total (items : list item) : Z :=
  fold_left (fun sum it => sum + unit_price it * quantity_or_1 it)%Z items 0%Z.

(** *** Buy Now (lines 35-39, 67-70) *)

(** [location.state || {}]: an absent state reads as [{}]. *)
Record location_state : Type := mkLocationState {
  ls_buyNow : bool;
  ls_product : item;
  ls_quantity : option Z
}.

(** [buyNowState.quantity || 1] *)
Definition buyNowQuantity (ls : location_state) : Z := js_or_Z (ls_quantity ls) 1.

(** [{ ...buyNowProduct, quantity: buyNowQuantity }] *)
Definition with_quantity (it : item) (q : Z) : item :=
  {| product_id := product_id it; id := id it; price := price it;
     products := products it; quantity := Some q |}.

(** [itemsForPayment] *)
Definition itemsForPayment (ls : location_state) (cartItems : option (list item)) : list item :=
  if ls_buyNow ls then [with_quantity (ls_product ls) (buyNowQuantity ls)]
  else match cartItems with Some l => l | None => [] end.

(** *** Order lines (lines 113-129) *)
Record order_item_row : Type := mkOrderItem {
  oi_order_id : nat;
  oi_product_id : string;
  oi_quantity : option Z;
  oi_price : Z
}.

(** [item.product_id || item.id] *)
Definition prodId (it : item) : option string := js_or_str (product_id it) (id it).

(** [validProductIds.includes(prodId)] *)
Definition includes (ids : list string) (p : option string) : bool :=
  match p with
  | Some s => existsb (String.eqb s) ids
  | None => false
  end.

(** The callback of [itemsForPayment.map]. *)
Definition order_item_of (oid : nat) (ids : list string) (it : item) : option order_item_row :=
  match prodId it with
  | Some pid =>
      if includes ids (Some pid) then
        Some {| oi_order_id := oid; oi_product_id := pid;
                oi_quantity := quantity it; oi_price := unit_price it |}
      else None
  | None => None
  end.

(** [.filter(Boolean)] *)
Fixpoint filter_nulls {A : Type} (l : list (option A)) : list A :=
  match l with
  | [] => []
  | Some x :: l' => x :: filter_nulls l'
  | None :: l' => filter_nulls l'
  end.

(** [orderItems] *)
Definition orderItems (oid : nat) (ids : list string) (items : list item) : list order_item_row :=
  filter_nulls (map (order_item_of oid ids) items).

(** [selectedBank] after a sequence of [onValueChange] events of the bank
    [Select] (lines 47 and 286-293): it starts as [''] and takes the value
    of the chosen [SelectItem]; the items are [banks.map(...)]. *)
Definition selectedBank_after (evs : list string) : string :=
  fold_left (fun _ b => b) evs "".

(** *** Database

    The Supabase tables the mutation touches, and the log of the calls it
    issues. Whether a call fails is decided by the backend: [fails c] is the
    message of the storage error returned by call [c], if any. *)
Inductive call : Type :=
| InsertOrder        (* [from('orders').insert(...).select().single()] *)
| SelectProductIds   (* [from('products').select('id')] *)
| InsertOrderItems   (* [from('order_items').insert(orderItems)] *)
| DeleteCart.        (* [from('cart_items').delete().eq('user_id', user.id)] *)

Record order_header : Type := mkOrderHeader {
  user_id : string;
  total_amount : Z;
  payment_method : string;
  payment_status : string;
  delivery_status : string;
  o_address : string;
  o_phone : string
}.

Record cart_row : Type := mkCartRow { c_user_id : string; c_item : item }.

Record db : Type := mkDb {
  orders : list (nat * order_header);
  order_items : list order_item_row;
  cart_items : list cart_row;
  products_ids : list string;
  calls : list call
}.

(** A state and error monad over the database. *)
Definition M (A : Type) : Type := db -> (error + A) * db.

Definition ret {A : Type} (x : A) : M A := fun d => (inr x, d).
Definition throw {A : Type} (e : error) : M A := fun d => (inl e, d).
Definition bind {A B : Type} (m : M A) (k : A -> M B) : M B :=
  fun d => match m d with
           | (inl e, d') => (inl e, d')
           | (inr x, d') => k x d'
           end.

Notation "x <- m ;; k" := (bind m (fun x => k)) (at level 61, m at next level, right associativity).
Notation "m ;; k" := (bind m (fun _ => k)) (at level 61, right associativity).

Definition log (c : call) (d : db) : db :=
  {| orders := orders d; order_items := order_items d; cart_items := cart_items d;
     products_ids := products_ids d; calls := calls d ++ [c] |}.

Section Supabase.
Variable fails : call -> option string.

(** [const { data, error } = await ...; if (error) throw error;] *)
Definition sb_call {A : Type} (c : call) (ok : db -> A * db) : M A :=
  fun d =>
    let d1 := log c d in
    match fails c with
    | Some m => (inl (Error m), d1)
    | None => let (x, d2) := ok d1 in (inr x, d2)
    end.

(** The new order gets the next identity. *)
Definition insert_order (h : order_header) : M (nat * order_header) :=
  sb_call InsertOrder (fun d =>
    let o := (List.length (orders d), h) in
    (o, {| orders := orders d ++ [o]; order_items := order_items d;
           cart_items := cart_items d; products_ids := products_ids d; calls := calls d |})).

Definition select_product_ids : M (list string) :=
  sb_call SelectProductIds (fun d => (products_ids d, d)).

(** One batch insert: all rows or none. *)
Definition insert_order_items (rows : list order_item_row) : M unit :=
  sb_call InsertOrderItems (fun d =>
    (tt, {| orders := orders d; order_items := order_items d ++ rows;
            cart_items := cart_items d; products_ids := products_ids d; calls := calls d |})).

Definition delete_cart (uid : string) : M unit :=
  sb_call DeleteCart (fun d =>
    (tt, {| orders := orders d; order_items := order_items d;
            cart_items := filter (fun r => negb (c_user_id r =? uid)) (cart_items d);
            products_ids := products_ids d; calls := calls d |})).

(** *** The page *)
Record page : Type := mkPage {
  user : option string;              (* [user?.id] *)
  location : location_state;
  cartItems : option (list item);    (* the data of the cart query *)
  pform : form
}.

(** The object inserted into [orders] (lines 95-103). *)
Definition order_record (uid : string) (items : list item) (f : form) : order_header :=
  {| user_id := uid; total_amount := total items;
     payment_method := paymentMethod f;
     payment_status := "completed";
     delivery_status := "ordered";
     o_address := address f; o_phone := phone f |}.

(** [createOrder]'s [mutationFn] (lines 76-146). *)
Definition createOrder (pg : page) : M (nat * order_header) :=
  let isBuyNow := ls_buyNow (location pg) in
  let items := itemsForPayment (location pg) (cartItems pg) in
  let f := pform pg in
  match user pg with
  | None => throw (Error "Cart is empty")
  | Some uid =>
    match items with
    | [] => throw (Error "Cart is empty")
    | _ :: _ =>
      if address f =? "" then throw (Error "Please enter your address") else
      if phone f =? "" then throw (Error "Please enter your phone number") else
      match validate_payment f with
      | Some e => throw e
      | None =>
        order <- insert_order (order_record uid items f) ;;
        validProductIds <- select_product_ids ;;
        let rows := orderItems (fst order) validProductIds items in
        match rows with
        | [] => throw (Error "No valid products found for this order")
        | _ :: _ =>
          insert_order_items rows ;;
          (if negb isBuyNow then delete_cart uid else ret tt) ;;
          ret order
        end
      end
    end
  end.

End Supabase.

End Payment.

(** ** The rest of the page *)

Module PaymentPage.
Import Payment.
Open Scope string_scope.

(** The cart rows of a user, each with its joined product:
    [from('cart_items').select('*, products( * )').eq('user_id', user.id)]. *)
Definition user_cart (d : db) (uid : string) : list item :=
  map c_item (filter (fun r => c_user_id r =? uid) (cart_items d)).



(** The guards before rendering (lines 162-173): the path navigated to, or
    [None] when the page is shown. *)
Definition render_route (pg : page) : option string :=
  let isBuyNow := ls_buyNow (location pg) in
  match user pg with
  | None => Some "/signin"
  | Some _ =>
      if negb isBuyNow && match cartItems pg with None | Some [] => true | _ => false end
      then Some "/cart"
      else if isBuyNow && match itemsForPayment (location pg) (cartItems pg) with
                          | [] => true | _ => false end
      then Some "/products"
      else None
  end.

(** The toasts of the mutation. *)
Inductive toast : Type :=
| ToastSuccess (message : string)
| ToastError (message : string).

(** [onSuccess] and [onError] (lines 147-159): the toast shown and the
    navigation, with the [orderId] passed in its state. *)
Definition settle (r : error + (nat * order_header)) : toast * option (string * nat) :=
  match r with
  | inr order => (ToastSuccess "Order placed successfully!", Some ("/order-confirmation", fst order))
  | inl e => (ToastError (onError e), None)
  end.

(** [a || b] on numbers, keeping an undefined result. *)
Definition js_or_optZ (a b : option Z) : option Z :=
  match a with
  | Some z => if Z.eqb z 0 then b else a
  | None => b
  end.

(** An Order Summary line (lines 317-324):
    [(item.products?.price || item.price) * item.quantity]. [None] stands
    for a missing operand ([undefined] or [null]), whose product is not a
    definite amount. *)
Definition summary_amount (it : item) : option Z :=
  match js_or_optZ (nested_price it) (price it), quantity it with
  | Some p, Some q => Some (p * q)%Z
  | _, _ => None
  end.

(** The sum of the Order Summary lines, when they are all amounts. *)
Definition summary_sum (items : list item) : option Z :=
  fold_right (fun it acc => match summary_amount it, acc with
                            | Some a, Some b => Some (a + b)%Z
                            | _, _ => None
                            end) (Some 0%Z) items.

End PaymentPage.

(** ** The specification's words

    Definitions that follow the specification, to be compared with the
    embedding of the code above. *)

Module Spec.
Import Regex Payment.
Open Scope string_scope.

(** A UPI handle: [local-part@domain-part], both parts non-empty and made of
    word characters, dots or hyphens. *)
Definition handle_char (a : ascii) : Prop := word a = true \/ a = "."%char \/ a = "-"%char.

Definition upi_handle (s : string) : Prop :=
  exists l d : list ascii, list_ascii_of_string s = (l ++ "@"%char :: d)%list /\ l <> [] /\ d <> []
              /\ Forall handle_char l /\ Forall handle_char d.

(** A card number of exactly 16 digits. *)
Definition card_number_ok (s : string) : bool :=
  (String.length s =? 16)%nat && forallb digit (list_ascii_of_string s).

Definition digit_value (a : ascii) : nat := nat_of_ascii a - nat_of_ascii "0".

(** An expiry [MM/YY] with month in 01-12. *)
Definition expiry_ok (s : string) : bool :=
  match list_ascii_of_string s with
  | [m1; m2; sl; y1; y2] =>
      digit m1 && digit m2 && Ascii.eqb sl "/" && digit y1 && digit y2
      && (1 <=? 10 * digit_value m1 + digit_value m2)%nat
      && (10 * digit_value m1 + digit_value m2 <=? 12)%nat
  | _ => false
  end.

(** A CVV of exactly 3 digits. *)
Definition cvv_ok (s : string) : bool :=
  (String.length s =? 3)%nat && forallb digit (list_ascii_of_string s).

(** The message of the first violated card rule, in the order card number,
    expiry, CVV. *)
Definition card_first_violation (cn ex cv : string) : option string :=
  if negb (card_number_ok cn) then Some "Card number must be 16 digits"
  else if negb (expiry_ok ex) then Some "Invalid expiry format (MM/YY)"
  else if negb (cvv_ok cv) then Some "CVV must be 3 digits"
  else None.

(** The message reported for an optional validation error. *)
Definition reported (e : option error) : option string :=
  match e with
  | Some e => Some (onError e)
  | None => None
  end.

(** The persistence pipeline, in its fixed order. *)
Definition steps : list call := [InsertOrder; SelectProductIds; InsertOrderItems; DeleteCart].

(** A number read from a stored row: [null] reads as [0]. *)
Definition num (q : option Z) : Z := match q with Some z => z | None => 0%Z end.

(** The sum of [unitPrice * quantity] over the candidates, quantity taken
    as it is. *)
Definition candidate_value (items : list item) : Z :=
  fold_right (fun it acc => unit_price it * num (quantity it) + acc)%Z 0%Z items.

(** The sum of [unitPrice * (quantity || 1)] over the candidates. *)
Definition candidate_value_or_1 (items : list item) : Z :=
  fold_right (fun it acc => unit_price it * quantity_or_1 it + acc)%Z 0%Z items.

(** The sum of [price * quantity] over persisted order lines. *)
Definition lines_value (rows : list order_item_row) : Z :=
  fold_right (fun r acc => oi_price r * num (oi_quantity r) + acc)%Z 0%Z rows.

(** The claim that an attempt whose candidates are all discarded fails with
    "No valid products found for this order" and leaves no Order and no
    OrderLine behind. *)
Definition fails_without_order (fails : call -> option string) (pg : page) (d : db) : Prop :=
  let (r, d') := createOrder fails pg d in
  r = inl (Error "No valid products found for this order")
  /\ orders d' = orders d /\ order_items d' = order_items d.

End Spec.

(** ** Matching by derivatives is matching *)

Module RegexFacts.
Import Regex.

Lemma in_re_eps_iff (s : list ascii) : in_re REps s <-> s = [].
Proof. split; [intros H; inversion H; reflexivity | intros ->; constructor]. Qed.

Lemma in_re_class_iff (p : ascii -> bool) (s : list ascii) :
  in_re (RClass p) s <-> exists a, s = [a] /\ p a = true.
Proof.
  split.
  - intros H; inversion H; subst; eauto.
  - intros (a & -> & Ha); now constructor.
Qed.

Lemma in_re_cat_iff (r1 r2 : re) (s : list ascii) :
  in_re (RCat r1 r2) s <-> exists s1 s2, s = s1 ++ s2 /\ in_re r1 s1 /\ in_re r2 s2.
Proof.
  split.
  - intros H; inversion H; subst; eauto.
  - intros (s1 & s2 & -> & H1 & H2); now constructor.
Qed.

Lemma in_re_alt_iff (r1 r2 : re) (s : list ascii) :
  in_re (RAlt r1 r2) s <-> in_re r1 s \/ in_re r2 s.
Proof.
  split.
  - intros H; inversion H; subst; auto.
  - intros [H | H]; [now apply in_alt_l | now apply in_alt_r].
Qed.

Lemma nullable_correct (r : re) : nullable r = true <-> in_re r [].
Proof.
  induction r as [| | p | r1 IH1 r2 IH2 | r1 IH1 r2 IH2 | r1 IH1]; simpl.
  - split; [discriminate | intros H; inversion H].
  - split; [intros _; constructor | reflexivity].
  - split; [discriminate | intros H; inversion H].
  - rewrite andb_true_iff, IH1, IH2, in_re_cat_iff. split.
    + intros [H1 H2]. exists [], []; auto.
    + intros (s1 & s2 & Hs & H1 & H2).
      symmetry in Hs; apply app_eq_nil in Hs as [-> ->]; auto.
  - rewrite orb_true_iff, IH1, IH2, in_re_alt_iff. tauto.
  - split; [intros _; constructor | reflexivity].
Qed.

Lemma deriv_sound (a : ascii) (r : re) (s : list ascii) :
  in_re (deriv a r) s -> in_re r (a :: s).
Proof.
  revert s; induction r as [| | p | r1 IH1 r2 IH2 | r1 IH1 r2 IH2 | r1 IH1]; simpl; intros s H.
  - inversion H.
  - inversion H.
  - destruct (p a) eqn:Hp; inversion H; subst. now constructor.
  - destruct (nullable r1) eqn:Hn.
    + apply in_re_alt_iff in H as [H | H].
      * apply in_re_cat_iff in H as (s1 & s2 & -> & H1 & H2).
        apply (in_cat r1 r2 (a :: s1) s2); auto.
      * apply nullable_correct in Hn.
        apply (in_cat r1 r2 [] (a :: s)); auto.
    + apply in_re_cat_iff in H as (s1 & s2 & -> & H1 & H2).
      apply (in_cat r1 r2 (a :: s1) s2); auto.
  - apply in_re_alt_iff in H as [H | H]; [apply in_alt_l | apply in_alt_r]; auto.
  - apply in_re_cat_iff in H as (s1 & s2 & -> & H1 & H2).
    apply (in_star_app r1 (a :: s1) s2); auto.
Qed.

Lemma deriv_complete (r : re) (s : list ascii) :
  in_re r s -> forall a s', s = a :: s' -> in_re (deriv a r) s'.
Proof.
  induction 1 as [| p b Hp | r1 r2 s1 s2 H1 IH1 H2 IH2 | r1 r2 s H IH | r1 r2 s H IH
                 | r | r s1 s2 H1 IH1 H2 IH2]; intros a s' Hs; simpl.
  - discriminate.
  - inversion Hs; subst. rewrite Hp. constructor.
  - destruct s1 as [| c s1]; simpl in Hs.
    + subst s2. assert (Hn : nullable r1 = true) by now apply nullable_correct.
      rewrite Hn. apply in_alt_r. now apply IH2.
    + inversion Hs; subst.
      assert (Hc : in_re (RCat (deriv a r1) r2) (s1 ++ s2)) by (constructor; auto).
      destruct (nullable r1); [now apply in_alt_l | exact Hc].
  - apply in_alt_l; eauto.
  - apply in_alt_r; eauto.
  - discriminate.
  - destruct s1 as [| c s1]; simpl in Hs.
    + subst s2. now apply IH2.
    + inversion Hs; subst. constructor; auto.
Qed.

Lemma matches_correct (r : re) (s : list ascii) : matches r s = true <-> in_re r s.
Proof.
  revert r; induction s as [| a s IH]; intros r; simpl.
  - apply nullable_correct.
  - rewrite IH. split; [apply deriv_sound | intros H; eapply deriv_complete; eauto].
Qed.

Lemma in_re_star_class (p : ascii -> bool) (s : list ascii) :
  in_re (RStar (RClass p)) s <-> Forall (fun a => p a = true) s.
Proof.
  split.
  - remember (RStar (RClass p)) as r eqn:Er. intros H; revert Er.
    induction H; intros Er; try discriminate.
    + constructor.
    + inversion Er; subst. apply in_re_class_iff in H as (a & -> & Ha).
      constructor; auto.
  - induction 1 as [| a s Ha _ IH]; [constructor |].
    apply (in_star_app (RClass p) [a] s); [now constructor | exact IH].
Qed.

Lemma in_re_plus_class (p : ascii -> bool) (s : list ascii) :
  in_re (RPlus (RClass p)) s <-> s <> [] /\ Forall (fun a => p a = true) s.
Proof.
  unfold RPlus. rewrite in_re_cat_iff. split.
  - intros (s1 & s2 & -> & H1 & H2).
    apply in_re_class_iff in H1 as (a & -> & Ha). apply in_re_star_class in H2.
    split; [discriminate | now constructor].
  - intros [Hne HF]. destruct s as [| a s]; [contradiction |].
    inversion HF; subst. exists [a], s.
    split; [reflexivity | split; [now constructor | now apply in_re_star_class]].
Qed.

Lemma in_re_rep_class (n : nat) (p : ascii -> bool) (s : list ascii) :
  in_re (RRep n (RClass p)) s <-> List.length s = n /\ Forall (fun a => p a = true) s.
Proof.
  revert s; induction n as [| n IH]; intros s; simpl.
  - rewrite in_re_eps_iff. split.
    + intros ->; auto.
    + intros [Hl _]; now apply length_zero_iff_nil.
  - rewrite in_re_cat_iff. split.
    + intros (s1 & s2 & -> & H1 & H2).
      apply in_re_class_iff in H1 as (a & -> & Ha). apply IH in H2 as [Hl HF].
      simpl; split; [now rewrite Hl | now constructor].
    + intros [Hl HF]. destruct s as [| a s]; [discriminate |].
      inversion HF; subst. exists [a], s.
      split; [reflexivity | split; [now constructor | apply IH; auto]].
Qed.

End RegexFacts.

(** ** The payment validator *)

Module ValidatorFacts.
Import Regex RegexFacts Payment Spec.
Open Scope string_scope.

Lemma nat_of_ascii_inj (a b : ascii) : nat_of_ascii a = nat_of_ascii b -> a = b.
Proof.
  intros H. rewrite <- (ascii_nat_embedding a), <- (ascii_nat_embedding b), H.
  reflexivity.
Qed.

Lemma chr_iff (c a : ascii) : chr c a = true <-> nat_of_ascii a = nat_of_ascii c.
Proof.
  unfold chr. rewrite Ascii.eqb_eq. split.
  - now intros ->.
  - apply nat_of_ascii_inj.
Qed.

Lemma range_iff (lo hi a : ascii) :
  range lo hi a = true <-> (nat_of_ascii lo <= nat_of_ascii a <= nat_of_ascii hi)%nat.
Proof. unfold range. rewrite andb_true_iff, !Nat.leb_le. tauto. Qed.

Lemma digit_iff (a : ascii) : digit a = true <-> (48 <= nat_of_ascii a <= 57)%nat.
Proof. unfold digit. now rewrite range_iff. Qed.

Lemma upi_char_iff (a : ascii) : upi_char a = true <-> handle_char a.
Proof.
  unfold upi_char, handle_char. rewrite !orb_true_iff.
  unfold chr. rewrite !Ascii.eqb_eq. tauto.
Qed.

Lemma Forall_upi_char (l : list ascii) :
  Forall (fun a => upi_char a = true) l <-> Forall handle_char l.
Proof.
  split; apply Forall_impl; intros a; apply upi_char_iff.
Qed.

Lemma forallb_Forall_iff (p : ascii -> bool) (l : list ascii) :
  forallb p l = true <-> Forall (fun a => p a = true) l.
Proof. rewrite forallb_forall, Forall_forall. reflexivity. Qed.

Lemma length_list_ascii (s : string) : List.length (list_ascii_of_string s) = String.length s.
Proof. induction s as [| a s IH]; simpl; auto. Qed.

Lemma test_card_number (s : string) : test card_number_re s = card_number_ok s.
Proof.
  apply eq_iff_eq_true. unfold test, card_number_ok, card_number_re.
  rewrite matches_correct, in_re_rep_class, andb_true_iff, Nat.eqb_eq,
    forallb_Forall_iff, length_list_ascii.
  reflexivity.
Qed.

Lemma test_cvv (s : string) : test cvv_re s = cvv_ok s.
Proof.
  apply eq_iff_eq_true. unfold test, cvv_ok, cvv_re.
  rewrite matches_correct, in_re_rep_class, andb_true_iff, Nat.eqb_eq,
    forallb_Forall_iff, length_list_ascii.
  reflexivity.
Qed.

Ltac ascii_arith :=
  repeat match goal with
  | H : _ /\ _ |- _ => destruct H
  | H : (_ && _) = true |- _ => apply andb_true_iff in H
  | H : digit _ = true |- _ => apply digit_iff in H
  | H : range _ _ _ = true |- _ => apply range_iff in H
  | H : chr _ _ = true |- _ => apply chr_iff in H
  | H : Ascii.eqb _ _ = true |- _ => apply Ascii.eqb_eq in H; subst
  | H : (_ <=? _)%nat = true |- _ => apply Nat.leb_le in H
  end;
  repeat match goal with
  | H : context [nat_of_ascii (Ascii ?b0 ?b1 ?b2 ?b3 ?b4 ?b5 ?b6 ?b7)] |- _ =>
      let c := constr:(Ascii b0 b1 b2 b3 b4 b5 b6 b7) in
      let v := eval vm_compute in (nat_of_ascii c) in
      change (nat_of_ascii c) with v in H
  | |- context [nat_of_ascii (Ascii ?b0 ?b1 ?b2 ?b3 ?b4 ?b5 ?b6 ?b7)] =>
      let c := constr:(Ascii b0 b1 b2 b3 b4 b5 b6 b7) in
      let v := eval vm_compute in (nat_of_ascii c) in
      change (nat_of_ascii c) with v
  end.

Lemma in_re_expiry (l : list ascii) :
  in_re expiry_re l <->
  exists m1 m2 y1 y2, l = [m1; m2; "/"%char; y1; y2]
    /\ ((nat_of_ascii m1 = 48 /\ 49 <= nat_of_ascii m2 <= 57)
        \/ (nat_of_ascii m1 = 49 /\ 48 <= nat_of_ascii m2 <= 50))%nat
    /\ digit y1 = true /\ digit y2 = true.
Proof.
  unfold expiry_re. rewrite in_re_cat_iff. split.
  - intros (s1 & s2 & -> & H1 & H2).
    apply in_re_cat_iff in H2 as (s3 & s4 & -> & H3 & H4).
    apply in_re_class_iff in H3 as (c & -> & Hc).
    apply in_re_rep_class in H4 as [Hl HF].
    destruct s4 as [| y1 [| y2 [| ? ?]]]; try discriminate.
    inversion HF as [| ? ? Hy1 HF']; subst; inversion HF'; subst.
    apply chr_iff in Hc. apply nat_of_ascii_inj in Hc. subst c.
    apply in_re_alt_iff in H1.
    destruct H1 as [H1 | H1];
      (apply in_re_cat_iff in H1 as (t1 & t2 & -> & T1 & T2);
       apply in_re_class_iff in T1 as (m1 & -> & E1);
       apply in_re_class_iff in T2 as (m2 & -> & E2);
       exists m1, m2, y1, y2;
       split; [reflexivity | split; [ascii_arith; lia | split; assumption]]).
  - intros (m1 & m2 & y1 & y2 & -> & Hm & Hy1 & Hy2).
    exists [m1; m2], ["/"%char; y1; y2]. split; [reflexivity |]. split.
    + destruct Hm as [[E1 E2] | [E1 E2]]; [apply in_alt_l | apply in_alt_r];
        (apply (in_cat _ _ [m1] [m2]); constructor;
         [apply chr_iff | apply range_iff]; ascii_arith; lia).
    + apply (in_cat _ _ ["/"%char] [y1; y2]); [constructor; reflexivity |].
      apply in_re_rep_class. auto.
Qed.

Lemma test_expiry (s : string) : test expiry_re s = expiry_ok s.
Proof.
  apply eq_iff_eq_true. unfold test, expiry_ok.
  rewrite matches_correct, in_re_expiry.
  destruct (list_ascii_of_string s) as [| m1 [| m2 [| sl [| y1 [| y2 [| ? ?]]]]]];
    split; try (intros (? & ? & ? & ? & E & _); discriminate); try discriminate.
  - intros (a1 & a2 & b1 & b2 & E & Hm & Hy1 & Hy2).
    inversion E; subst. destruct Hm as [[E1 E2] | [E1 E2]];
    repeat (apply andb_true_iff; split); try assumption; try reflexivity;
      try (apply digit_iff; lia);
      apply Nat.leb_le; unfold digit_value; ascii_arith; lia.
  - intros H. unfold digit_value in *. ascii_arith.
    exists m1, m2, y1, y2. split; [reflexivity |].
    split; [| split; apply digit_iff; lia]. lia.
Qed.

Lemma in_re_upi (l : list ascii) :
  in_re upi_re l <->
  exists l1 l2 : list ascii, l = (l1 ++ "@"%char :: l2)%list /\ l1 <> [] /\ l2 <> []
                /\ Forall handle_char l1 /\ Forall handle_char l2.
Proof.
  unfold upi_re. rewrite in_re_cat_iff. split.
  - intros (s1 & s2 & -> & H1 & H2).
    apply in_re_cat_iff in H2 as (s3 & s4 & -> & H3 & H4).
    apply in_re_class_iff in H3 as (c & -> & Hc).
    apply chr_iff, nat_of_ascii_inj in Hc. subst c.
    apply in_re_plus_class in H1 as [N1 F1]. apply in_re_plus_class in H4 as [N4 F4].
    exists s1, s4. rewrite <- !Forall_upi_char. auto.
  - intros (l1 & l2 & -> & N1 & N2 & F1 & F2).
    exists l1, ("@"%char :: l2). split; [reflexivity |].
    rewrite <- Forall_upi_char in F1, F2. split.
    + now apply in_re_plus_class.
    + apply (in_cat _ _ ["@"%char] l2); [constructor; reflexivity |].
      now apply in_re_plus_class.
Qed.

Lemma test_upi (s : string) : test upi_re s = true <-> upi_handle s.
Proof. unfold test, upi_handle. rewrite matches_correct. apply in_re_upi. Qed.

End ValidatorFacts.

(** ** Claims about the payment validator *)

Module ValidatorClaims.
Import Regex RegexFacts Payment Spec ValidatorFacts.
Open Scope string_scope.

Lemma selectedBank_after_listed (evs : list string) :
  Forall (fun b => In b banks) evs ->
  selectedBank_after evs = "" \/ In (selectedBank_after evs) banks.
Proof.
  unfold selectedBank_after.
  assert (Hgen : forall x, x = "" \/ In x banks -> Forall (fun b => In b banks) evs ->
                 fold_left (fun _ b => b) evs x = "" \/ In (fold_left (fun _ b => b) evs x) banks).
  { induction evs as [| b evs IH]; intros x Hx HF; simpl; auto.
    inversion HF; subst. apply IH; auto. }
  intros HF. apply Hgen; auto.
Qed.

Lemma banks_non_empty (b : string) : In b banks -> b <> "".
Proof. simpl. intros H; repeat destruct H as [<- | H]; try discriminate; contradiction. Qed.

(** C5: a card payment passes validation exactly when the (whitespace-stripped)
    card number is 16 digits, the expiry is [MM/YY] with month 01-12 and the
    CVV is 3 digits; otherwise the reported message is that of the first
    violated rule in the order card number, expiry, CVV. *)
Theorem card_validation :
  (forall raw ex cv u bank addr ph,
      reported (validate_payment (mkForm "card" u (strip_spaces raw) ex cv bank addr ph))
      = card_first_violation (strip_spaces raw) ex cv)
  /\ (forall u bank addr ph,
      validate_payment (mkForm "card" u "1234567812345678" "12/25" "123" bank addr ph) = None)
  /\ (forall ex cv u bank addr ph,
      reported (validate_payment (mkForm "card" u "123456781234567" ex cv bank addr ph))
      = Some "Card number must be 16 digits")
  /\ (forall cv u bank addr ph,
      reported (validate_payment (mkForm "card" u "1234567812345678" "13/25" cv bank addr ph))
      = Some "Invalid expiry format (MM/YY)").
Proof.
  assert (Hmain : forall cn ex cv u bank addr ph,
      reported (validate_payment (mkForm "card" u cn ex cv bank addr ph))
      = card_first_violation cn ex cv).
  { intros cn ex cv u bank addr ph.
    unfold validate_payment, cardSchema, zod_regex, card_first_violation.
    cbn [paymentMethod cardNumber expiry cvv].
    change ("card" =? "upi") with false. change ("card" =? "card") with true. cbv iota beta.
    rewrite test_card_number, test_expiry, test_cvv.
    destruct (card_number_ok cn), (expiry_ok ex), (cvv_ok cv); reflexivity. }
  split; [intros; apply Hmain |]. split; [| split].
  - intros. reflexivity.
  - intros. rewrite Hmain. reflexivity.
  - intros. rewrite Hmain. reflexivity.
Qed.

(** C6: a UPI payment passes validation exactly when the handle is
    [local-part@domain-part] with both parts made of word characters, dots
    or hyphens, and fails with "Invalid UPI ID format" otherwise;
    "user@bank" passes, "user" and "user@" fail. *)
Theorem upi_validation :
  (forall s cn ex cv bank addr ph,
      (validate_payment (mkForm "upi" s cn ex cv bank addr ph) = None /\ upi_handle s)
      \/ (validate_payment (mkForm "upi" s cn ex cv bank addr ph)
            = Some (ZodError ["Invalid UPI ID format"]) /\ ~ upi_handle s))
  /\ (forall cn ex cv bank addr ph,
      validate_payment (mkForm "upi" "user@bank" cn ex cv bank addr ph) = None)
  /\ (forall cn ex cv bank addr ph,
      validate_payment (mkForm "upi" "user" cn ex cv bank addr ph)
      = Some (ZodError ["Invalid UPI ID format"]))
  /\ (forall cn ex cv bank addr ph,
      validate_payment (mkForm "upi" "user@" cn ex cv bank addr ph)
      = Some (ZodError ["Invalid UPI ID format"])).
Proof.
  split; [| split; [| split]]; intros; try reflexivity.
  unfold validate_payment, upiSchema, zod_regex. simpl paymentMethod. simpl upiId.
  change ("upi" =? "upi") with true. cbv iota beta.
  destruct (test upi_re s) eqn:E.
  - left. split; [reflexivity | now apply test_upi].
  - right. split; [reflexivity |]. rewrite <- test_upi, E. discriminate.
Qed.

(** C7: whatever the user picks in the bank selector (whose items are the
    fixed list [banks]), net-banking validation passes exactly when the
    selection is one of [banks], and fails with "Please select a bank"
    exactly when no bank is selected; selecting "HDFC Bank" passes. *)
Theorem netbanking_validation (evs : list string) (Hevs : Forall (fun b => In b banks) evs) :
  (forall u cn ex cv addr ph,
      (validate_payment (mkForm "netbanking" u cn ex cv (selectedBank_after evs) addr ph) = None
       <-> In (selectedBank_after evs) banks)
      /\ (validate_payment (mkForm "netbanking" u cn ex cv (selectedBank_after evs) addr ph)
            = Some (Error "Please select a bank")
          <-> selectedBank_after evs = ""))
  /\ (forall u cn ex cv addr ph,
      validate_payment (mkForm "netbanking" u cn ex cv (selectedBank_after ["HDFC Bank"]) addr ph)
      = None).
Proof.
  split; [| intros; reflexivity].
  intros u cn ex cv addr ph.
  unfold validate_payment. simpl paymentMethod. simpl selectedBank.
  change ("netbanking" =? "upi") with false. change ("netbanking" =? "card") with false.
  change ("netbanking" =? "netbanking") with true. cbv iota beta. simpl andb.
  destruct (selectedBank_after_listed evs Hevs) as [E | Hin].
  - rewrite E. simpl. split; split; try discriminate; auto.
    intros Hin. exfalso. now apply (banks_non_empty "").
  - assert (Hne := banks_non_empty _ Hin).
    destruct (String.eqb_spec (selectedBank_after evs) "") as [E | _]; [contradiction |].
    split; split; auto; intros E; [discriminate | contradiction].
Qed.

Lemma netbanking_validation_witness :
  Forall (fun b => In b banks) ["HDFC Bank"]
  /\ validate_payment (mkForm "netbanking" "" "" "" "" (selectedBank_after ["HDFC Bank"]) "a" "p")
     = None.
Proof.
  assert (H : Forall (fun b => In b banks) ["HDFC Bank"]) by (repeat constructor; simpl; tauto).
  split; [exact H |].
  apply (proj1 (proj1 (netbanking_validation ["HDFC Bank"] H) "" "" "" "" "a" "p")).
  simpl; tauto.
Defined.

End ValidatorClaims.

(** ** Items, totals and order lines *)

Module ItemFacts.
Import Payment Spec.
Open Scope string_scope.
Open Scope list_scope.

Lemma fold_total (l : list item) (acc : Z) :
  fold_left (fun sum it => sum + unit_price it * quantity_or_1 it)%Z l acc
  = (acc + candidate_value_or_1 l)%Z.
Proof.
  revert acc; induction l as [| it l IH]; intros acc; simpl.
  - lia.
  - rewrite IH. lia.
Qed.

Lemma total_sum (l : list item) : total l = candidate_value_or_1 l.
Proof. unfold total. rewrite fold_total. lia. Qed.

Lemma candidate_value_or_1_app (l1 l2 : list item) :
  candidate_value_or_1 (l1 ++ l2) = (candidate_value_or_1 l1 + candidate_value_or_1 l2)%Z.
Proof. induction l1 as [| it l1 IH]; simpl; [reflexivity | rewrite IH; lia]. Qed.

Lemma orderItems_app (oid : nat) (ids : list string) (l1 l2 : list item) :
  orderItems oid ids (l1 ++ l2) = orderItems oid ids l1 ++ orderItems oid ids l2.
Proof.
  unfold orderItems. rewrite map_app.
  induction (map (order_item_of oid ids) l1) as [| [x |] l IH]; simpl; congruence.
Qed.

Lemma includes_In (ids : list string) (pid : string) :
  includes ids (Some pid) = true <-> In pid ids.
Proof.
  unfold includes. rewrite existsb_exists. split.
  - intros (x & Hx & E). apply String.eqb_eq in E. now subst.
  - intros H. exists pid. split; [exact H | apply String.eqb_refl].
Qed.

Lemma orderItems_discarded (oid : nat) (ids : list string) (l : list item) :
  Forall (fun it => includes ids (prodId it) = false) l -> orderItems oid ids l = [].
Proof.
  induction 1 as [| it l H _ IH]; [reflexivity |].
  change (it :: l) with ([it] ++ l). rewrite orderItems_app, IH.
  unfold orderItems; simpl. unfold order_item_of.
  destruct (prodId it) as [pid |]; [rewrite H |]; reflexivity.
Qed.

Lemma order_item_of_quantity (oid : nat) (ids : list string) (it : item) (r : order_item_row) :
  order_item_of oid ids it = Some r -> oi_quantity r = quantity it.
Proof.
  unfold order_item_of. destruct (prodId it); [| discriminate].
  destruct (includes ids (Some s)); [| discriminate]. intros H; now inversion H.
Qed.

End ItemFacts.

Module ItemClaims.
Import Payment Spec ItemFacts.
Open Scope string_scope.
Open Scope list_scope.

(** C8 (counterexample): a Buy Now state with quantity [-2] yields an item
    of quantity [-2], not a quantity coerced to at least 1. *)
Lemma buy_now_negative_quantity :
  map quantity (itemsForPayment (mkLocationState true (mkItem None (Some "p1") (Some 100%Z) None None)
                                                  (Some (-2)%Z)) None)
  = [Some (-2)%Z]
  /\ (-2 < 1)%Z.
Proof. split; [reflexivity | lia]. Qed.

(** C8 (amended): in Buy Now mode the payable items are exactly one item,
    the supplied product with quantity [quantity || 1]: the supplied
    quantity when it is a non-zero number, 1 when it is missing or zero;
    a negative quantity is kept. *)
Theorem buy_now_single_item :
  (forall p qo cart,
      itemsForPayment (mkLocationState true p qo) cart
      = [with_quantity p (match qo with
                          | Some q => if Z.eqb q 0 then 1%Z else q
                          | None => 1%Z
                          end)])
  /\ (forall p cart,
      map quantity (itemsForPayment (mkLocationState true p None) cart) = [Some 1%Z]
      /\ map quantity (itemsForPayment (mkLocationState true p (Some 0%Z)) cart) = [Some 1%Z]).
Proof.
  split; intros; [| split]; reflexivity.
Qed.

(** C2 (counterexample): a candidate of price 100 and quantity 0 adds 100 to
    the total, not 100 * 0. *)
Lemma total_zero_quantity :
  total [mkItem None (Some "p1") (Some 100%Z) None (Some 0%Z)] = 100%Z
  /\ candidate_value [mkItem None (Some "p1") (Some 100%Z) None (Some 0%Z)] = 0%Z.
Proof. split; reflexivity. Qed.

(** C3: reconciliation keeps a candidate exactly when its resolved product
    identity ([product_id] when set, else [id]) is in the catalog snapshot,
    one candidate's fate does not depend on the others, and a kept line
    records the candidate's quantity and the unit price taken from the
    candidate's own price when set, else the nested product's price when
    set, else 0. *)
Theorem reconcile_pointwise (oid : nat) (ids : list string) :
  (forall l1 l2, orderItems oid ids (l1 ++ l2) = orderItems oid ids l1 ++ orderItems oid ids l2)
  /\ (forall it,
      prodId it = match product_id it with
                  | Some s => if s =? "" then id it else Some s
                  | None => id it
                  end)
  /\ (forall it,
      (exists pid, prodId it = Some pid /\ In pid ids
         /\ orderItems oid ids [it]
            = [{| oi_order_id := oid; oi_product_id := pid;
                  oi_quantity := quantity it; oi_price := unit_price it |}])
      \/ (~ (exists pid, prodId it = Some pid /\ In pid ids) /\ orderItems oid ids [it] = []))
  /\ (forall it,
      unit_price it = match price it, nested_price it with
                      | Some p, _ => if Z.eqb p 0 then js_or_Z (nested_price it) 0 else p
                      | None, Some q => if Z.eqb q 0 then 0%Z else q
                      | None, None => 0%Z
                      end).
Proof.
  split; [apply orderItems_app |]. split; [| split].
  - intros it. unfold prodId, js_or_str. destruct (product_id it); reflexivity.
  - intros it. unfold orderItems; simpl. unfold order_item_of.
    destruct (prodId it) as [pid |] eqn:E.
    + destruct (includes ids (Some pid)) eqn:Hin.
      * left. exists pid. split; [reflexivity | split; [now apply includes_In | reflexivity]].
      * right. split; [| reflexivity]. intros (p & Ep & Hp).
        inversion Ep; subst. apply includes_In in Hp. congruence.
    + right. split; [| reflexivity]. intros (p & Ep & _). discriminate.
  - intros it. unfold unit_price, js_or_Z.
    destruct (price it) as [p |], (nested_price it) as [q |]; reflexivity.
Qed.

(** C10: a candidate whose quantity is missing or zero counts with quantity
    1 in the total, while its order line records the quantity as it is; so
    the recorded total and the value of the recorded lines can disagree
    even when every candidate is kept. *)
Theorem quantity_default_mismatch :
  (forall it l1 l2, quantity it = None \/ quantity it = Some 0%Z ->
      total (l1 ++ it :: l2) = (total l1 + unit_price it * 1 + total l2)%Z)
  /\ (forall oid ids it r, order_item_of oid ids it = Some r -> oi_quantity r = quantity it)
  /\ (exists o d',
      createOrder (fun _ => None)
        (mkPage (Some "u") (mkLocationState false (mkItem None None None None None) None)
           (Some [mkItem (Some "p1") (Some "c1") None (Some (mkProduct (Some 100%Z))) (Some 0%Z)])
           (mkForm "cod" "" "" "" "" "" "addr" "123"))
        (mkDb [] [] [mkCartRow "u" (mkItem (Some "p1") (Some "c1") None
                                      (Some (mkProduct (Some 100%Z))) (Some 0%Z))] ["p1"] [])
      = (inr o, d')
      /\ List.length (order_items d') = 1%nat
      /\ total_amount (snd o) = 100%Z /\ lines_value (order_items d') = 0%Z).
Proof.
  split; [| split].
  - intros it l1 l2 Hq. rewrite !total_sum, candidate_value_or_1_app. simpl.
    unfold quantity_or_1, js_or_Z. destruct Hq as [-> | ->]; simpl; lia.
  - apply order_item_of_quantity.
  - vm_compute. do 2 eexists. split; [reflexivity | split; [| split]; reflexivity].
Qed.

Lemma quantity_default_mismatch_witness :
  total ([] ++ [mkItem None (Some "p1") (Some 100%Z) None None]) = 100%Z.
Proof.
  rewrite (proj1 quantity_default_mismatch (mkItem None (Some "p1") (Some 100%Z) None None) [] []);
    [reflexivity | left; reflexivity].
Defined.

End ItemClaims.

(** ** The [createOrder] pipeline *)

Module PipelineFacts.
Import Payment Spec ItemFacts.
Open Scope string_scope.
Open Scope list_scope.

Ltac unfold_pipeline :=
  unfold createOrder, bind, ret, throw, insert_order, select_product_ids,
    insert_order_items, delete_cart, sb_call, log; cbv zeta.

Ltac split_pipeline :=
  repeat match goal with
  | |- context [match ?x with _ => _ end] =>
      lazymatch x with
      | (_, _) => fail
      | match _ with _ => _ end => fail
      | _ => lazymatch type of x with
             | prod _ _ => fail
             | _ => destruct x eqn:?; cbn -[orderItems]
             end
      end
  end.

Ltac finish_pipeline :=
  repeat match goal with
  | |- _ /\ _ => split
  | H : negb _ = true |- _ => apply negb_true_iff in H
  | H : negb _ = false |- _ => apply negb_false_iff in H
  | |- Some _ = Some _ -> _ => let H := fresh in intros H; inversion H; subst; clear H
  | |- None = Some _ -> _ => let H := fresh in intros H; discriminate H
  | |- Some _ = None -> _ => let H := fresh in intros H; discriminate H
  | |- [] <> [] -> _ => let H := fresh in intros H; exfalso; apply H; reflexivity
  | |- _ -> _ => intros
  end;
  try reflexivity; try discriminate; try congruence.

Ltac calls_prefix k :=
  solve [ exists k; cbn [firstn steps Nat.sub]; split;
          [ rewrite <- ?app_assoc; reflexivity
          | split; [ repeat constructor; cbn beta; assumption | finish_pipeline ] ] ].

(** The orders table grows by at most the header of this attempt. *)
Lemma createOrder_orders (fails : call -> option string) (pg : page) (d : db) :
  orders (snd (createOrder fails pg d)) = orders d
  \/ exists uid, user pg = Some uid
     /\ orders (snd (createOrder fails pg d))
        = orders d ++ [(List.length (orders d),
                        order_record uid (itemsForPayment (location pg) (cartItems pg)) (pform pg))].
Proof.
  unfold_pipeline. split_pipeline;
    first [left; reflexivity | right; eexists; split; reflexivity].
Qed.

Lemma not_empty_eqb (s : string) : s <> "" -> (s =? "") = false.
Proof. apply String.eqb_neq. Qed.

End PipelineFacts.

Module PipelineClaims.
Import Payment Spec ItemFacts PipelineFacts.
Open Scope string_scope.
Open Scope list_scope.

(** C2 (amended): the total recorded on an Order is the sum over all
    candidates, before reconciliation, of [unitPrice * quantity], a missing
    or zero quantity counting as 1; it does not depend on the catalog, so
    not on which candidates are kept. Two candidates of price 100 and
    quantity 2, and price 50 and quantity 1, give 250. *)
Theorem recorded_total :
  (forall items, total items = candidate_value_or_1 items)
  /\ total [mkItem None (Some "a") (Some 100%Z) None (Some 2%Z);
            mkItem None (Some "b") (Some 50%Z) None (Some 1%Z)] = 250%Z
  /\ (forall fails pg d,
      orders (snd (createOrder fails pg d)) = orders d
      \/ exists n h, orders (snd (createOrder fails pg d)) = orders d ++ [(n, h)]
         /\ total_amount h = candidate_value_or_1 (itemsForPayment (location pg) (cartItems pg))).
Proof.
  split; [exact total_sum | split; [reflexivity |]].
  intros fails pg d. destruct (createOrder_orders fails pg d) as [H | (uid & _ & H)]; [now left |].
  right. do 2 eexists. split; [exact H |]. apply total_sum.
Qed.

(** C4: once the attempt has a user and items, an empty address fails
    first with "Please enter your address", then an empty phone with
    "Please enter your phone number", then the payment method's own
    validation; each of these failures leaves the database untouched (no
    call issued, nothing written). *)
Theorem validation_before_persistence (fails : call -> option string) (pg : page) (d : db)
    (uid : string) (Hu : user pg = Some uid)
    (Hi : itemsForPayment (location pg) (cartItems pg) <> []) :
  (address (pform pg) = "" ->
     createOrder fails pg d = (inl (Error "Please enter your address"), d))
  /\ (address (pform pg) <> "" -> phone (pform pg) = "" ->
     createOrder fails pg d = (inl (Error "Please enter your phone number"), d))
  /\ (address (pform pg) <> "" -> phone (pform pg) <> "" ->
      forall e, validate_payment (pform pg) = Some e -> createOrder fails pg d = (inl e, d)).
Proof.
  unfold createOrder; cbv zeta. rewrite Hu.
  destruct (itemsForPayment (location pg) (cartItems pg)) as [| it l]; [congruence |].
  split; [| split].
  - intros Ha. rewrite Ha. reflexivity.
  - intros Ha Hp. rewrite (not_empty_eqb _ Ha), Hp. reflexivity.
  - intros Ha Hp e He. rewrite (not_empty_eqb _ Ha), (not_empty_eqb _ Hp), He. reflexivity.
Qed.

Lemma validation_before_persistence_witness :
  createOrder (fun _ => None)
    (mkPage (Some "u") (mkLocationState true (mkItem None (Some "p1") (Some 100%Z) None None) None)
       None (mkForm "cod" "" "" "" "" "" "" "123"))
    (mkDb [] [] [] ["p1"] [])
  = (inl (Error "Please enter your address"), mkDb [] [] [] ["p1"] []).
Proof.
  apply (proj1 (validation_before_persistence (fun _ => None)
    (mkPage (Some "u") (mkLocationState true (mkItem None (Some "p1") (Some 100%Z) None None) None)
       None (mkForm "cod" "" "" "" "" "" "" "123"))
    (mkDb [] [] [] ["p1"] []) "u" eq_refl ltac:(discriminate))).
  reflexivity.
Defined.

(** C1 (counterexample): a Buy Now attempt for a product missing from the
    catalog discards its only candidate and fails with "No valid products
    found for this order", but the Order header inserted before the catalog
    check stays in the orders table. *)
Lemma dangling_order_header :
  orderItems 0 [] (itemsForPayment (mkLocationState true (mkItem None (Some "p1") (Some 100%Z) None None) None) None) = []
  /\ ~ fails_without_order (fun _ => None)
         (mkPage (Some "u") (mkLocationState true (mkItem None (Some "p1") (Some 100%Z) None None) None)
            None (mkForm "cod" "" "" "" "" "" "addr" "123"))
         (mkDb [] [] [] [] []).
Proof.
  split; [reflexivity |].
  unfold fails_without_order. vm_compute. intros (_ & H & _). discriminate H.
Qed.

(** C1 (amended): when every candidate is discarded by reconciliation, the
    attempt fails with "No valid products found for this order", no
    OrderLine is inserted or attempted and the cart is kept; the Order
    header inserted before the catalog check stays persisted, with no
    lines. *)
Theorem all_discarded_fails (fails : call -> option string) (pg : page) (d : db) (uid : string)
    (Hu : user pg = Some uid)
    (Hi : itemsForPayment (location pg) (cartItems pg) <> [])
    (Ha : address (pform pg) <> "") (Hp : phone (pform pg) <> "")
    (Hv : validate_payment (pform pg) = None)
    (F1 : fails InsertOrder = None) (F2 : fails SelectProductIds = None)
    (Hd : Forall (fun it => includes (products_ids d) (prodId it) = false)
            (itemsForPayment (location pg) (cartItems pg))) :
  let (r, d') := createOrder fails pg d in
  r = inl (Error "No valid products found for this order")
  /\ order_items d' = order_items d
  /\ cart_items d' = cart_items d
  /\ calls d' = calls d ++ [InsertOrder; SelectProductIds]
  /\ orders d' = orders d ++ [(List.length (orders d),
                               order_record uid (itemsForPayment (location pg) (cartItems pg)) (pform pg))].
Proof.
  unfold_pipeline. rewrite Hu.
  assert (E := orderItems_discarded (List.length (orders d)) _ _ Hd).
  destruct (itemsForPayment (location pg) (cartItems pg)) as [| it l]; [congruence |].
  rewrite (not_empty_eqb _ Ha), (not_empty_eqb _ Hp), Hv, F1. cbn -[orderItems].
  rewrite F2. cbn -[orderItems]. rewrite E. cbn. rewrite <- app_assoc. repeat split.
Qed.

Lemma all_discarded_fails_witness :
  match createOrder (fun _ => None)
          (mkPage (Some "u") (mkLocationState true (mkItem None (Some "p1") (Some 100%Z) None None) None)
             None (mkForm "cod" "" "" "" "" "" "addr" "123"))
          (mkDb [] [] [] [] []) with
  | (r, _) => r = inl (Error "No valid products found for this order")
  end.
Proof.
  pose proof (all_discarded_fails (fun _ => None)
    (mkPage (Some "u") (mkLocationState true (mkItem None (Some "p1") (Some 100%Z) None None) None)
       None (mkForm "cod" "" "" "" "" "" "addr" "123"))
    (mkDb [] [] [] [] []) "u" eq_refl ltac:(discriminate) ltac:(discriminate) ltac:(discriminate)
    eq_refl eq_refl eq_refl ltac:(repeat constructor)) as H.
  destruct (createOrder _ _ _) as [r d']. exact (proj1 H).
Defined.

(** C9: after validation, the calls run in the fixed order header insert,
    catalog read, line insert, cart delete, each issued only when the
    previous one succeeded, and the cart delete only in the cart flow; a
    failed header insert issues nothing else and writes nothing; a failed
    line insert surfaces its error and leaves the header persisted; a
    failed cart delete surfaces its error and leaves the header and the
    lines persisted. *)
Theorem persistence_sequence (fails : call -> option string) (pg : page) (d : db) (uid : string)
    (Hu : user pg = Some uid)
    (Hi : itemsForPayment (location pg) (cartItems pg) <> [])
    (Ha : address (pform pg) <> "") (Hp : phone (pform pg) <> "")
    (Hv : validate_payment (pform pg) = None) :
  let header := (List.length (orders d),
                 order_record uid (itemsForPayment (location pg) (cartItems pg)) (pform pg)) in
  let rows := orderItems (List.length (orders d)) (products_ids d)
                (itemsForPayment (location pg) (cartItems pg)) in
  let (r, d') := createOrder fails pg d in
  (exists k, calls d' = calls d ++ firstn k steps
             /\ Forall (fun c => fails c = None) (firstn (k - 1) steps)
             /\ (k = 4%nat -> ls_buyNow (location pg) = false))
  /\ (forall m, fails InsertOrder = Some m ->
        r = inl (Error m) /\ calls d' = calls d ++ [InsertOrder]
        /\ orders d' = orders d /\ order_items d' = order_items d /\ cart_items d' = cart_items d)
  /\ (forall m, fails InsertOrder = None -> fails SelectProductIds = None -> rows <> [] ->
        fails InsertOrderItems = Some m ->
        r = inl (Error m) /\ calls d' = calls d ++ [InsertOrder; SelectProductIds; InsertOrderItems]
        /\ orders d' = orders d ++ [header]
        /\ order_items d' = order_items d /\ cart_items d' = cart_items d)
  /\ (forall m, fails InsertOrder = None -> fails SelectProductIds = None -> rows <> [] ->
        fails InsertOrderItems = None -> ls_buyNow (location pg) = false ->
        fails DeleteCart = Some m ->
        r = inl (Error m) /\ orders d' = orders d ++ [header]
        /\ order_items d' = order_items d ++ rows /\ cart_items d' = cart_items d).
Proof.
  cbv zeta. unfold_pipeline. rewrite Hu.
  destruct (itemsForPayment (location pg) (cartItems pg)) as [| it l]; [congruence |].
  rewrite (not_empty_eqb _ Ha), (not_empty_eqb _ Hp), Hv. cbn -[orderItems].
  split_pipeline;
    (split;
     [ first [ calls_prefix 1%nat | calls_prefix 2%nat | calls_prefix 3%nat | calls_prefix 4%nat ]
     | finish_pipeline; rewrite <- ?app_assoc; reflexivity ]).
Qed.

Lemma persistence_sequence_witness :
  match createOrder (fun c => match c with InsertOrderItems => Some "insert failed" | _ => None end)
          (mkPage (Some "u") (mkLocationState true (mkItem None (Some "p1") (Some 100%Z) None None) None)
             None (mkForm "cod" "" "" "" "" "" "addr" "123"))
          (mkDb [] [] [] ["p1"] []) with
  | (r, d') => r = inl (Error "insert failed") /\ List.length (orders d') = 1%nat
  end.
Proof.
  pose proof (persistence_sequence
    (fun c => match c with InsertOrderItems => Some "insert failed" | _ => None end)
    (mkPage (Some "u") (mkLocationState true (mkItem None (Some "p1") (Some 100%Z) None None) None)
       None (mkForm "cod" "" "" "" "" "" "addr" "123"))
    (mkDb [] [] [] ["p1"] []) "u" eq_refl ltac:(discriminate) ltac:(discriminate)
    ltac:(discriminate) eq_refl) as H.
  cbv zeta in H. destruct (createOrder _ _ _) as [r d'].
  destruct H as (_ & _ & H & _).
  destruct (H "insert failed" eq_refl eq_refl ltac:(vm_compute; discriminate) eq_refl)
    as (Hr & _ & Ho & _).
  split; [exact Hr | rewrite Ho; reflexivity].
Defined.

End PipelineClaims.

(** ** Further properties of the page *)

Module PageFacts.
Import Payment PaymentPage Spec ItemFacts PipelineFacts.
Open Scope string_scope.
Open Scope list_scope.

Lemma filter_other_user (rows : list cart_row) (uid v : string) :
  v <> uid ->
  filter (fun r => c_user_id r =? v) (filter (fun r => negb (c_user_id r =? uid)) rows)
  = filter (fun r => c_user_id r =? v) rows.
Proof.
  intros Hv. induction rows as [| r rows IH]; simpl; [reflexivity |].
  destruct (String.eqb_spec (c_user_id r) uid) as [E | E]; simpl.
  - rewrite IH. destruct (String.eqb_spec (c_user_id r) v); [congruence | reflexivity].
  - destruct (c_user_id r =? v); simpl; rewrite IH; reflexivity.
Qed.

Lemma filter_same_user (rows : list cart_row) (uid : string) :
  filter (fun r => c_user_id r =? uid) (filter (fun r => negb (c_user_id r =? uid)) rows) = [].
Proof.
  induction rows as [| r rows IH]; simpl; [reflexivity |].
  destruct (c_user_id r =? uid) eqn:E; simpl; [exact IH | rewrite E; exact IH].
Qed.

Lemma orderItems_rows (oid : nat) (ids : list string) (items : list item) :
  Forall (fun r => oi_order_id r = oid /\ In (oi_product_id r) ids) (orderItems oid ids items).
Proof.
  induction items as [| it items IH]; [constructor |].
  change (it :: items) with ([it] ++ items). rewrite orderItems_app.
  apply Forall_app. split; [| exact IH].
  unfold orderItems; simpl. unfold order_item_of.
  destruct (prodId it) as [pid |]; [| constructor].
  destruct (includes ids (Some pid)) eqn:Hin; [| constructor].
  constructor; [| constructor]. split; [reflexivity | now apply includes_In].
Qed.

Lemma orderItems_nil_oid (n m : nat) (ids : list string) (items : list item) :
  orderItems n ids items = [] -> orderItems m ids items = [].
Proof.
  induction items as [| it items IH]; [reflexivity |].
  change (it :: items) with ([it] ++ items). rewrite !orderItems_app.
  intros H. apply app_eq_nil in H as [H1 H2]. rewrite (IH H2), app_nil_r.
  revert H1. unfold orderItems; simpl. unfold order_item_of.
  destruct (prodId it) as [pid |]; [| reflexivity].
  destruct (includes ids (Some pid)); [discriminate | reflexivity].
Qed.

Lemma zod_regex_nonempty (r : Regex.re) (msg v : string) :
  msg <> "" -> Forall (fun m => m <> "") (zod_regex r msg v).
Proof. intros H. unfold zod_regex. destruct (Regex.test r v); repeat constructor; exact H. Qed.

Lemma validate_payment_error_shape (f : form) (e : error) :
  validate_payment f = Some e ->
  ((paymentMethod f = "upi" \/ paymentMethod f = "card")
   /\ exists m ms, e = ZodError (m :: ms) /\ m <> "")
  \/ (paymentMethod f = "netbanking" /\ selectedBank f = "" /\ e = Error "Please select a bank").
Proof.
  unfold validate_payment.
  destruct (String.eqb_spec (paymentMethod f) "upi") as [Hu | Hu].
  - unfold zod_parse, upiSchema.
    pose proof (zod_regex_nonempty upi_re "Invalid UPI ID format" (upiId f) ltac:(discriminate)) as Hn.
    destruct (zod_regex upi_re "Invalid UPI ID format" (upiId f)) as [| m ms]; intros H;
      [discriminate | injection H as <-].
    left. split; [left; exact Hu |]. exists m, ms. split; [reflexivity |].
    inversion Hn; assumption.
  - destruct (String.eqb_spec (paymentMethod f) "card") as [Hc | Hc].
    + unfold zod_parse, cardSchema.
      assert (Hn : Forall (fun m => m <> "") (cardSchema (cardNumber f) (expiry f) (cvv f))).
      { unfold cardSchema. apply Forall_app; split; [| apply Forall_app; split];
          apply zod_regex_nonempty; discriminate. }
      unfold cardSchema in Hn.
      destruct (_ ++ _ ++ _) as [| m ms]; intros H; [discriminate | injection H as <-].
      left. split; [right; exact Hc |]. exists m, ms. split; [reflexivity |].
      inversion Hn; assumption.
    + destruct (String.eqb_spec (paymentMethod f) "netbanking") as [Hn | Hn];
        destruct (String.eqb_spec (selectedBank f) "") as [Hb | Hb]; cbn; intros H;
        try discriminate.
      injection H as <-. right. auto.
Qed.


Lemma handle_chars_no_at (l : list ascii) :
  Forall handle_char l -> count_occ ascii_dec l "@"%char = 0%nat.
Proof.
  induction 1 as [| a l Ha _ IH]; [reflexivity |].
  rewrite count_occ_cons_neq; [exact IH |].
  intros ->. destruct Ha as [Hw | [E | E]]; [vm_compute in Hw; discriminate | discriminate | discriminate].
Qed.

Lemma summary_amount_unit (it : item) :
  (exists q, quantity it = Some q /\ q <> 0%Z) ->
  ((price it = None /\ exists p, nested_price it = Some p /\ p <> 0%Z)
   \/ (nested_price it = None /\ exists p, price it = Some p)) ->
  summary_amount it = Some (unit_price it * quantity_or_1 it)%Z.
Proof.
  intros [q [Hq Hq0]] Hp. unfold summary_amount, unit_price, quantity_or_1.
  rewrite Hq. cbn [js_or_Z]. rewrite (proj2 (Z.eqb_neq q 0) Hq0).
  destruct Hp as [[Hpr [p [Hn Hp0]]] | [Hn [p Hpr]]]; rewrite Hpr, Hn; cbn.
  - rewrite (proj2 (Z.eqb_neq p 0) Hp0). reflexivity.
  - destruct (Z.eqb_spec p 0) as [-> |]; reflexivity.
Qed.

End PageFacts.

Module PageClaims.
Import Payment PaymentPage Spec ValidatorFacts ItemFacts PipelineFacts PageFacts.
Open Scope string_scope.
Open Scope list_scope.

(** Whatever its outcome, [createOrder] only appends to [orders] (at most one
    header) and to [order_items], never changes [products], and never
    changes the cart rows of a user other than the signed-in one. *)
Theorem createOrder_append_only (fails : call -> option string) (pg : page) (d : db) :
  match createOrder fails pg d with
  | (_, d') =>
      (exists os, orders d' = orders d ++ os /\ (List.length os <= 1)%nat)
      /\ (exists rs, order_items d' = order_items d ++ rs)
      /\ products_ids d' = products_ids d
      /\ (forall v, user pg = Some v \/ user_cart d' v = user_cart d v)
  end.
Proof.
  unfold_pipeline. split_pipeline;
    (split;
     [ first [ exists []; rewrite app_nil_r; split; [reflexivity | simpl; lia]
             | eexists; split; [reflexivity | simpl; lia] ]
     | split;
       [ first [ exists []; rewrite app_nil_r; reflexivity | eexists; reflexivity ]
       | split;
         [ reflexivity
         | intros v;
           first
             [ right; reflexivity
             | match goal with
               | |- Some ?u = Some v \/ _ =>
                   destruct (String.eqb_spec v u) as [-> | Hne];
                   [ left; reflexivity
                   | right; unfold user_cart; cbn; rewrite filter_other_user by exact Hne;
                     reflexivity ]
               end ] ] ] ]).
Qed.

(** A successful [createOrder] comes from a signed-in user; its order is the
    next identity with the header built from the page, appended to
    [orders]; its non-empty lines reference that order and existing
    products; the user's cart is emptied in the cart flow and the cart
    table is untouched in Buy Now; [onSuccess] navigates to
    [/order-confirmation] with that order's identity. *)
Theorem successful_checkout (fails : call -> option string) (pg : page) (d : db) :
  match createOrder fails pg d with
  | (inr o, d') =>
      exists uid rows,
        user pg = Some uid
        /\ o = (List.length (orders d),
                order_record uid (itemsForPayment (location pg) (cartItems pg)) (pform pg))
        /\ orders d' = orders d ++ [o]
        /\ rows = orderItems (fst o) (products_ids d) (itemsForPayment (location pg) (cartItems pg))
        /\ rows <> [] /\ order_items d' = order_items d ++ rows
        /\ Forall (fun r => oi_order_id r = fst o /\ In (oi_product_id r) (products_ids d)) rows
        /\ (if ls_buyNow (location pg) then cart_items d' = cart_items d
            else user_cart d' uid = [])
        /\ settle (inr o)
           = (ToastSuccess "Order placed successfully!", Some ("/order-confirmation", fst o))
  | (inl _, _) => True
  end.
Proof.
  destruct (ls_buyNow (location pg)) eqn:Hb; unfold_pipeline; rewrite ?Hb;
    cbn -[orderItems]; split_pipeline; try exact I;
  match goal with
  | Hu : user pg = Some ?u, Hr : orderItems _ _ _ = ?r0 :: ?rs |- _ =>
      exists u, (r0 :: rs);
      split; [reflexivity |]; split; [reflexivity |]; split; [reflexivity |];
      split; [symmetry; exact Hr |]; split; [discriminate |]; split; [reflexivity |];
      split; [rewrite <- Hr; apply orderItems_rows |]; split; [| reflexivity];
      first [reflexivity | rewrite filter_same_user; reflexivity]
  end.
Qed.

(** Running the mutation a second time on the same page after a success,
    with no failing call, succeeds again and stores a second order with the
    next identity and the same header: nothing prevents a duplicate order. *)
Theorem resubmission_duplicates (pg : page) (d : db) :
  match createOrder (fun _ => None) pg d with
  | (inr o1, d1) =>
      match createOrder (fun _ => None) pg d1 with
      | (inr o2, d2) => fst o2 = S (fst o1) /\ snd o2 = snd o1 /\ orders d2 = orders d ++ [o1; o2]
      | (inl _, _) => False
      end
  | (inl _, _) => True
  end.
Proof.
  unfold_pipeline. split_pipeline; try exact I;
  match goal with
  | H0 : orderItems _ _ _ = _ :: _, H1 : orderItems _ _ _ = [] |- False =>
      apply (orderItems_nil_oid _ (List.length (orders d))) in H1; congruence
  | |- _ =>
      rewrite length_app, <- app_assoc; cbn; split; [lia | split; reflexivity]
  end.
Qed.

(** When no guard redirects, a user is signed in and the items to pay for are
    non-empty, so the mutation's [Cart is empty] check never fires. *)
Theorem render_shown_can_submit (pg : page) :
  render_route pg = None ->
  exists uid, user pg = Some uid /\ itemsForPayment (location pg) (cartItems pg) <> [].
Proof.
  unfold render_route, itemsForPayment.
  destruct (user pg) as [uid |]; [| discriminate].
  destruct (ls_buyNow (location pg)); cbn.
  - intros _. exists uid. split; [reflexivity | discriminate].
  - destruct (cartItems pg) as [[| it l] |]; cbn; try discriminate.
    intros _. exists uid. split; [reflexivity | discriminate].
Qed.

Lemma render_shown_can_submit_witness :
  render_route (mkPage (Some "u") (mkLocationState true (mkItem (Some "p") None (Some 100%Z) None None) None)
                  None (mkForm "cod" "" "" "" "" "" "a" "1")) = None
  /\ exists uid, Some "u" = Some uid
       /\ itemsForPayment (mkLocationState true (mkItem (Some "p") None (Some 100%Z) None None) None)
            None <> [].
Proof.
  split; [reflexivity |].
  exact (render_shown_can_submit
           (mkPage (Some "u") (mkLocationState true (mkItem (Some "p") None (Some 100%Z) None None) None)
              None (mkForm "cod" "" "" "" "" "" "a" "1")) eq_refl).
Defined.

(** The guards never navigate to [/products]: in Buy Now the items to pay
    for are one item, never empty. *)
Theorem render_never_products (pg : page) : render_route pg <> Some "/products".
Proof.
  unfold render_route, itemsForPayment.
  destruct (user pg); [| discriminate].
  destruct (ls_buyNow (location pg)); cbn;
    [discriminate | destruct (cartItems pg) as [[|] |]; cbn; discriminate].
Qed.

(** In Buy Now the page is shown exactly when a user is signed in, whatever
    the cart query holds. *)
Theorem buy_now_render (pg : page) :
  ls_buyNow (location pg) = true ->
  render_route pg = match user pg with None => Some "/signin" | Some _ => None end.
Proof.
  intros Hb. unfold render_route, itemsForPayment. rewrite Hb.
  destruct (user pg); reflexivity.
Qed.

Lemma buy_now_render_witness :
  ls_buyNow (mkLocationState true (mkItem None None None None None) (Some 0%Z)) = true
  /\ render_route (mkPage (Some "u") (mkLocationState true (mkItem None None None None None) (Some 0%Z))
                    (Some []) (mkForm "upi" "" "" "" "" "" "" "")) = None.
Proof.
  split; [reflexivity |].
  exact (buy_now_render
           (mkPage (Some "u") (mkLocationState true (mkItem None None None None None) (Some 0%Z))
              (Some []) (mkForm "upi" "" "" "" "" "" "" "")) eq_refl).
Defined.


(** A Buy Now submission never modifies the cart table, whatever its outcome. *)
Theorem buy_now_keeps_cart (fails : call -> option string) (pg : page) (d : db) :
  ls_buyNow (location pg) = true ->
  cart_items (snd (createOrder fails pg d)) = cart_items d.
Proof.
  intros Hb. unfold_pipeline. rewrite Hb. cbn -[orderItems]. split_pipeline; reflexivity.
Qed.

Lemma buy_now_keeps_cart_witness :
  ls_buyNow (mkLocationState true (mkItem (Some "p") None (Some 5%Z) None None) None) = true
  /\ cart_items (snd (createOrder (fun _ => None)
       (mkPage (Some "u") (mkLocationState true (mkItem (Some "p") None (Some 5%Z) None None) None)
          None (mkForm "cod" "" "" "" "" "" "a" "1"))
       (mkDb [] [] [mkCartRow "u" (mkItem (Some "p") None None None (Some 2%Z))] ["p"] [])))
     = [mkCartRow "u" (mkItem (Some "p") None None None (Some 2%Z))].
Proof.
  split; [reflexivity |].
  exact (buy_now_keeps_cart (fun _ => None)
           (mkPage (Some "u") (mkLocationState true (mkItem (Some "p") None (Some 5%Z) None None) None)
              None (mkForm "cod" "" "" "" "" "" "a" "1"))
           (mkDb [] [] [mkCartRow "u" (mkItem (Some "p") None None None (Some 2%Z))] ["p"] [])
           eq_refl).
Defined.

(** When the cart delete fails, a cart submission never succeeds; if the
    delete was issued, the error is the delete's, the order and its lines
    are stored, and the cart is left as it was. *)
Theorem cart_clear_failure (fails : call -> option string) (pg : page) (d : db) (m : string) :
  fails DeleteCart = Some m ->
  match createOrder fails pg d with
  | (inr _, _) => ls_buyNow (location pg) = true
  | (inl e, d') =>
      calls d' = calls d ++ [InsertOrder; SelectProductIds; InsertOrderItems; DeleteCart] ->
      e = Error m /\ cart_items d' = cart_items d
      /\ exists o rows, rows <> [] /\ orders d' = orders d ++ [o]
                        /\ order_items d' = order_items d ++ rows
  end.
Proof.
  intros Hm. unfold_pipeline. rewrite Hm.
  destruct (ls_buyNow (location pg)) eqn:Hb; cbn -[orderItems]; split_pipeline;
    try reflexivity; intros Hc;
    try (apply (f_equal (@List.length call)) in Hc; rewrite ?length_app in Hc; cbn in Hc; lia).
  split; [reflexivity | split; [reflexivity |]].
  do 2 eexists. split; [| split; reflexivity]. discriminate.
Qed.

Lemma cart_clear_failure_witness :
  (fun c => match c with DeleteCart => Some "network" | _ => None end) DeleteCart = Some "network"
  /\ fst (createOrder (fun c => match c with DeleteCart => Some "network" | _ => None end)
            (mkPage (Some "u") (mkLocationState false (mkItem None None None None None) None)
               (Some [mkItem (Some "p") None None (Some (mkProduct (Some 100%Z))) (Some 1%Z)])
               (mkForm "cod" "" "" "" "" "" "a" "1"))
            (mkDb [] [] [] ["p"] [])) = inl (Error "network").
Proof.
  split; [reflexivity |].
  pose proof (cart_clear_failure (fun c => match c with DeleteCart => Some "network" | _ => None end)
                (mkPage (Some "u") (mkLocationState false (mkItem None None None None None) None)
                   (Some [mkItem (Some "p") None None (Some (mkProduct (Some 100%Z))) (Some 1%Z)])
                   (mkForm "cod" "" "" "" "" "" "a" "1"))
                (mkDb [] [] [] ["p"] []) "network" eq_refl) as H.
  vm_compute in H. destruct (H eq_refl) as [He _]. vm_compute. exact (f_equal inl He).
Defined.

(** Every failed submission shows an error toast with a non-empty message. *)
Theorem error_toast_nonempty (fails : call -> option string) (pg : page) (d : db) :
  match createOrder fails pg d with
  | (inl e, _) => onError e <> ""
  | (inr _, _) => True
  end.
Proof.
  unfold_pipeline. split_pipeline; try exact I; try discriminate;
  try match goal with
  | H : (?m =? "") = false |- ?m <> "" => apply String.eqb_neq; exact H
  | H : validate_payment _ = Some ?e |- onError ?e <> "" =>
      apply validate_payment_error_shape in H as [[_ [m [ms [-> Hm]]]] | [_ [_ ->]]];
      [exact Hm | discriminate]
  end.
Qed.

(** When each item has exactly one price source (the joined product's
    non-zero price, or its own price) and a non-zero quantity, the Order
    Summary lines add up to [total]. *)
Theorem summary_matches_total (items : list item) :
  Forall (fun it =>
            (exists q, quantity it = Some q /\ q <> 0%Z)
            /\ ((price it = None /\ exists p, nested_price it = Some p /\ p <> 0%Z)
                \/ (nested_price it = None /\ exists p, price it = Some p))) items ->
  summary_sum items = Some (total items).
Proof.
  rewrite total_sum. induction 1 as [| it l [Hq Hp] _ IH]; [reflexivity |].
  cbn [summary_sum fold_right candidate_value_or_1].
  change (fold_right _ (Some 0%Z) l) with (summary_sum l). rewrite IH.
  rewrite (summary_amount_unit it Hq Hp). reflexivity.
Qed.

Lemma summary_matches_total_witness :
  Forall (fun it =>
            (exists q, quantity it = Some q /\ q <> 0%Z)
            /\ ((price it = None /\ exists p, nested_price it = Some p /\ p <> 0%Z)
                \/ (nested_price it = None /\ exists p, price it = Some p)))
    [mkItem (Some "a") None None (Some (mkProduct (Some 250%Z))) (Some 2%Z);
     mkItem None (Some "b") (Some 99%Z) None (Some 1%Z)]
  /\ summary_sum [mkItem (Some "a") None None (Some (mkProduct (Some 250%Z))) (Some 2%Z);
                  mkItem None (Some "b") (Some 99%Z) None (Some 1%Z)] = Some 599%Z.
Proof.
  assert (H : Forall (fun it =>
            (exists q, quantity it = Some q /\ q <> 0%Z)
            /\ ((price it = None /\ exists p, nested_price it = Some p /\ p <> 0%Z)
                \/ (nested_price it = None /\ exists p, price it = Some p)))
    [mkItem (Some "a") None None (Some (mkProduct (Some 250%Z))) (Some 2%Z);
     mkItem None (Some "b") (Some 99%Z) None (Some 1%Z)]).
  { constructor; [split | constructor; [split | constructor]].
    - exists 2%Z. split; [reflexivity | lia].
    - left. split; [reflexivity |]. exists 250%Z. split; [reflexivity | lia].
    - exists 1%Z. split; [reflexivity | lia].
    - right. split; [reflexivity |]. exists 99%Z. reflexivity. }
  split; [exact H |].
  rewrite (summary_matches_total _ H). reflexivity.
Defined.

(** When an item has both prices, non-zero and different, and a non-zero
    quantity, its Order Summary line uses the product's price while
    [total] uses the item's own price, and the two differ. *)
Theorem summary_line_mismatch (it : item) (a b q : Z) :
  price it = Some a -> nested_price it = Some b -> quantity it = Some q ->
  a <> 0%Z -> b <> 0%Z -> a <> b -> q <> 0%Z ->
  summary_sum [it] = Some (b * q)%Z /\ total [it] = (a * q)%Z /\ (b * q <> a * q)%Z.
Proof.
  intros Ha Hb Hq Ha0 Hb0 Hab Hq0.
  unfold summary_sum, summary_amount, total, unit_price, quantity_or_1, js_or_optZ; cbn.
  rewrite Ha, Hb, Hq. cbn.
  rewrite (proj2 (Z.eqb_neq a 0) Ha0), (proj2 (Z.eqb_neq b 0) Hb0), (proj2 (Z.eqb_neq q 0) Hq0).
  split; [f_equal; lia | split; [reflexivity | nia]].
Qed.

Lemma summary_line_mismatch_witness :
  summary_sum [mkItem (Some "p") None (Some 100%Z) (Some (mkProduct (Some 80%Z))) (Some 1%Z)] = Some 80%Z
  /\ total [mkItem (Some "p") None (Some 100%Z) (Some (mkProduct (Some 80%Z))) (Some 1%Z)] = 100%Z
  /\ (80 * 1 <> 100 * 1)%Z.
Proof.
  apply (summary_line_mismatch (mkItem (Some "p") None (Some 100%Z) (Some (mkProduct (Some 80%Z))) (Some 1%Z))
           100 80 1); first [reflexivity | lia].
Defined.


(** Payment validation reads only the fields of the selected method: two
    forms agreeing on the method and on that method's fields validate alike. *)
Theorem validate_payment_reads_selected (f f' : form) :
  paymentMethod f = paymentMethod f' ->
  (paymentMethod f = "upi" -> upiId f = upiId f') ->
  (paymentMethod f = "card" -> cardNumber f = cardNumber f' /\ expiry f = expiry f' /\ cvv f = cvv f') ->
  (paymentMethod f = "netbanking" -> selectedBank f = selectedBank f') ->
  validate_payment f = validate_payment f'.
Proof.
  intros Hm Hu Hc Hn. unfold validate_payment. rewrite <- Hm.
  destruct (String.eqb_spec (paymentMethod f) "upi") as [E | E]; [rewrite (Hu E); reflexivity |].
  destruct (String.eqb_spec (paymentMethod f) "card") as [E' | E'];
    [destruct (Hc E') as [-> [-> ->]]; reflexivity |].
  destruct (String.eqb_spec (paymentMethod f) "netbanking") as [E'' | E''];
    [rewrite (Hn E'') | ]; reflexivity.
Qed.

Lemma validate_payment_reads_selected_witness :
  validate_payment (mkForm "cod" "" "1" "" "" "" "" "")
  = validate_payment (mkForm "cod" "x@y" "1234567812345678" "12/30" "123" "HDFC Bank" "a" "1").
Proof.
  apply validate_payment_reads_selected; cbn; first [reflexivity | discriminate].
Defined.

(** Payment validation fails only for UPI or card, with a zod error whose
    first message is non-empty, or for net banking with no bank selected;
    cash on delivery and any other method always pass. *)
Theorem validate_payment_errors (f : form) (e : error) :
  validate_payment f = Some e ->
  ((paymentMethod f = "upi" \/ paymentMethod f = "card")
   /\ exists m ms, e = ZodError (m :: ms) /\ m <> "")
  \/ (paymentMethod f = "netbanking" /\ selectedBank f = "" /\ e = Error "Please select a bank").
Proof. apply validate_payment_error_shape. Qed.

Lemma validate_payment_errors_witness :
  validate_payment (mkForm "netbanking" "" "" "" "" "" "a" "1") = Some (Error "Please select a bank")
  /\ (((paymentMethod (mkForm "netbanking" "" "" "" "" "" "a" "1") = "upi"
        \/ paymentMethod (mkForm "netbanking" "" "" "" "" "" "a" "1") = "card")
       /\ exists m ms, Error "Please select a bank" = ZodError (m :: ms) /\ m <> "")
      \/ (paymentMethod (mkForm "netbanking" "" "" "" "" "" "a" "1") = "netbanking"
          /\ selectedBank (mkForm "netbanking" "" "" "" "" "" "a" "1") = ""
          /\ Error "Please select a bank" = Error "Please select a bank")).
Proof.
  split; [reflexivity |]. apply validate_payment_errors. reflexivity.
Defined.

(** A UPI id accepted by [upiSchema] contains exactly one [@]. *)
Theorem upi_single_at (s : string) :
  upiSchema s = [] -> count_occ ascii_dec (list_ascii_of_string s) "@"%char = 1%nat.
Proof.
  unfold upiSchema, zod_regex. destruct (Regex.test upi_re s) eqn:Ht; [| discriminate].
  intros _. apply test_upi in Ht as [l [r [E [_ [_ [Hl Hr]]]]]].
  rewrite E, count_occ_app, count_occ_cons_eq by reflexivity.
  rewrite (handle_chars_no_at l Hl), (handle_chars_no_at r Hr). reflexivity.
Qed.

Lemma upi_single_at_witness :
  upiSchema "john.doe@okaxis" = []
  /\ count_occ ascii_dec (list_ascii_of_string "john.doe@okaxis") "@"%char = 1%nat.
Proof. split; [vm_compute; reflexivity | apply upi_single_at; vm_compute; reflexivity]. Defined.



End PageClaims.
